(** * gpytorch.lazy.non_lazy_tensor: the dense-tensor adapter

    A shallow embedding of [NonLazyTensor] and [lazify] from
    [gpytorch/lazy/non_lazy_tensor.py].

    The module is glue between two things it does not define: the torch
    tensor library and the [LazyTensor] base class.  Both are taken as
    interfaces ([Torch], [LazyTensorBase]); the adapter is embedded over
    them, on a store of Python objects, so that object identity, the raised
    exceptions and the absence of mutation can be stated. *)

From Stdlib Require Import ZArith List String Bool Lia PeanoNat Eqdep_dec.
Import ListNotations.
Local Open Scope string_scope.
Local Open Scope Z_scope.
Local Open Scope list_scope.
Local Set Warnings "-register-all".

(** ** Python values *)

(** Objects live in a store and are named by their address. *)
Definition loc := nat.

(** The Python values the module can be handed: immediate values and
    references to stored objects. *)
Inductive value : Type :=
  | VNone
  | VEllipsis
  | VBool (b : bool)
  | VInt (z : Z)
  | VStr (s : string)
  | VSlice (start stop step : option Z)
  | VTuple (items : list value)
  | VSize (dims : list nat)          (* torch.Size *)
  | VRef (l : loc).

(** The exceptions that occur, each with its message. *)
Inductive exn : Type :=
  | RuntimeError (msg : string)
  | TypeError (msg : string)
  | IndexError (msg : string)
  | ValueError (msg : string)
  | AttributeError (msg : string)
  | NotImplementedError (msg : string).

Definition result (A : Type) : Type := (exn + A)%type.

(** ** The torch interface

    The tensor primitives the adapter forwards to.  An index handed to
    [Tensor.__getitem__] is either a plain Python value or a tensor. *)
Inductive index (T : Type) : Type :=
  | IVal (v : value)
  | ITensor (t : T).
Arguments IVal {T} v.
Arguments ITensor {T} t.

Class Torch : Type := {
  Tensor : Type;
  (* torch.matmul(input, other) *)
  matmul : Tensor -> Tensor -> result Tensor;
  (* Tensor.transpose(dim0, dim1) *)
  transpose : Tensor -> Z -> Z -> result Tensor;
  (* Tensor.diagonal(offset, dim1, dim2) *)
  diagonal : Tensor -> Z -> Z -> Z -> result Tensor;
  (* Tensor.size() *)
  size : Tensor -> list nat;
  (* Tensor.__getitem__(indices), indices a tuple *)
  getitem : Tensor -> list (index Tensor) -> result Tensor
}.

(** What the adapter's transposition relies on: swapping the last two
    dimensions is defined on every tensor with at least two of them, and
    swapping them back restores the tensor. *)
Class TorchLaws (torch : Torch) : Prop := {
  transpose_defined : forall t : Tensor,
    (2 <= List.length (size t))%nat -> exists t', transpose t (-1) (-2) = inr t';
  transpose_involutive : forall t t' : Tensor,
    transpose t (-1) (-2) = inr t' -> transpose t' (-1) (-2) = inr t
}.

(** ** The store and the base class *)

Section Store.
Context {torch : Torch}.

(** [Base] is whatever [LazyTensor.__init__] records on the instance. *)
Variable Base : Type.

Inductive obj : Type :=
  | OTensor (t : Tensor)                      (* a torch.Tensor *)
  | ONonLazy (base : Base) (tensor : value)   (* a NonLazyTensor and its self.tensor *)
  | OLazy (cls : string) (base : Base)        (* an instance of another LazyTensor class *)
  | OOther (cls : string).                    (* an instance of an unrelated class *)

Definition heap := list obj.

Definition lookup (h : heap) (l : loc) : option obj := nth_error h l.

Definition deref (h : heap) (v : value) : option obj :=
  match v with
  | VRef l => lookup h l
  | _ => None
  end.

(** The tensor a value denotes, when it is a reference to one. *)
Definition tensor_at (h : heap) (v : value) : option Tensor :=
  match deref h v with
  | Some (OTensor t) => Some t
  | _ => None
  end.

(** torch.is_tensor(obj) *)
Definition is_tensor (h : heap) (v : value) : bool :=
  match tensor_at h v with
  | Some _ => true
  | None => false
  end.

(** isinstance(obj, LazyTensor) *)
Definition is_LazyTensor (h : heap) (v : value) : bool :=
  match deref h v with
  | Some (ONonLazy _ _) | Some (OLazy _ _) => true
  | _ => false
  end.

(** isinstance(obj, int); bool is a subclass of int. *)
Definition is_int (v : value) : bool :=
  match v with
  | VInt _ | VBool _ => true
  | _ => false
  end.

(** obj.__class__.__name__ *)
Definition class_name (h : heap) (v : value) : string :=
  match v with
  | VNone => "NoneType"
  | VEllipsis => "ellipsis"
  | VBool _ => "bool"
  | VInt _ => "int"
  | VStr _ => "str"
  | VSlice _ _ _ => "slice"
  | VTuple _ => "tuple"
  | VSize _ => "Size"
  | VRef l =>
      match lookup h l with
      | Some (OTensor _) => "Tensor"
      | Some (ONonLazy _ _) => "NonLazyTensor"
      | Some (OLazy c _) => c
      | Some (OOther c) => c
      | None => "object"
      end
  end.

(** ** Computations: a store threaded through, or an exception *)

Definition M (A : Type) : Type := heap -> result A * heap.

Definition ret {A} (a : A) : M A := fun h => (inr a, h).

Definition raise {A} (e : exn) : M A := fun h => (inl e, h).

Definition bind {A B} (m : M A) (k : A -> M B) : M B :=
  fun h =>
    match m h with
    | (inr a, h') => k a h'
    | (inl e, h') => (inl e, h')
    end.

Definition lift {A} (r : result A) : M A := fun h => (r, h).

Definition read {A} (f : heap -> A) : M A := fun h => (inr (f h), h).

(** A new object gets the next free address. *)
Definition alloc (o : obj) : M value :=
  fun h => (inr (VRef (List.length h)), h ++ [o]).

End Store.

Arguments OTensor {torch Base} t.
Arguments ONonLazy {torch Base} base tensor.
Arguments OLazy {torch Base} cls base.
Arguments OOther {torch Base} cls.
Arguments ret {torch Base A} a.
Arguments raise {torch Base A} e.
Arguments bind {torch Base A B} m k.
Arguments lift {torch Base A} r.
Arguments read {torch Base A} f.
Arguments alloc {torch Base} o.
Arguments lookup {torch Base} h l.
Arguments deref {torch Base} h v.
Arguments tensor_at {torch Base} h v.
Arguments is_tensor {torch Base} h v.
Arguments is_LazyTensor {torch Base} h v.
Arguments class_name {torch Base} h v.

Declare Scope py_scope.
Delimit Scope py_scope with py.
Notation "x <- m ;; k" := (bind m (fun x => k))
  (at level 61, m at next level, right associativity) : py_scope.

(** The base class.  [LazyTensor.__init__] is defined outside this module:
    it is handed the constructor's arguments, may inspect the store, and
    either raises or yields the state it records. *)
Class LazyTensorBase (torch : Torch) : Type := {
  Base : Type;
  LazyTensor_init : list (obj Base) -> list value -> result Base
}.

(** ** Calls into torch, on stored objects *)

Section Runtime.
Context {torch : Torch} {lazy : LazyTensorBase torch}.

Local Open Scope py_scope.

Definition no_attribute (h : heap Base) (v : value) (attr : string) : exn :=
  AttributeError
    ("'" ++ class_name h v ++ "' object has no attribute '" ++ attr ++ "'")%string.

(** The receiver of a tensor method.  The operands of the adapter's
    methods are dense tensors; any other receiver is taken to lack the
    method. *)
Definition tensor_self (attr : string) (v : value) : M Base Tensor :=
  fun h =>
    match tensor_at h v with
    | Some t => (inr t, h)
    | None => (inl (no_attribute h v attr), h)
    end.

(** An argument that torch requires to be a tensor. *)
Definition tensor_arg (what : string) (v : value) : M Base Tensor :=
  fun h =>
    match tensor_at h v with
    | Some t => (inr t, h)
    | None =>
        (inl (TypeError (what ++ " must be Tensor, not " ++ class_name h v)%string), h)
    end.

(** torch.matmul(input, other); the product is a new tensor object. *)
Definition torch_matmul (input other : value) : M Base value :=
  a <- tensor_arg "matmul(): argument 'input'" input ;;
  b <- tensor_arg "matmul(): argument 'other'" other ;;
  r <- lift (matmul a b) ;;
  alloc (OTensor r).

(** self.matmul(other), the argument being evaluated after the method is
    looked up. *)
Definition tensor_matmul (self : value) (other : M Base value) : M Base value :=
  a <- tensor_self "matmul" self ;;
  o <- other ;;
  b <- tensor_arg "matmul(): argument 'other'" o ;;
  r <- lift (matmul a b) ;;
  alloc (OTensor r).

(** self.transpose(dim0, dim1) *)
Definition tensor_transpose (self : value) (dim0 dim1 : Z) : M Base value :=
  t <- tensor_self "transpose" self ;;
  r <- lift (transpose t dim0 dim1) ;;
  alloc (OTensor r).

(** self.diagonal(dim1=.., dim2=..); the offset defaults to 0. *)
Definition tensor_diagonal (self : value) (dim1 dim2 : Z) : M Base value :=
  t <- tensor_self "diagonal" self ;;
  r <- lift (diagonal t 0 dim1 dim2) ;;
  alloc (OTensor r).

(** self.size() *)
Definition tensor_size (self : value) : M Base value :=
  t <- tensor_self "size" self ;;
  ret (VSize (size t)).

(** An index that is a tensor is passed as that tensor. *)
Definition resolve_index (h : heap Base) (v : value) : index Tensor :=
  match tensor_at h v with
  | Some t => ITensor t
  | None => IVal v
  end.

(** self[indices] and self.__getitem__(indices), indices a tuple. *)
Definition tensor_getitem (self : value) (indices : list value) : M Base value :=
  t <- tensor_self "__getitem__" self ;;
  idx <- read (fun h => map (resolve_index h) indices) ;;
  r <- lift (getitem t idx) ;;
  alloc (OTensor r).

(** items[i] on a tuple: a negative i counts from the end. *)
Definition tuple_getitem (items : list value) (i : Z) : M Base value :=
  let n := Z.of_nat (List.length items) in
  let j := if i <? 0 then i + n else i in
  if (0 <=? j) && (j <? n)
  then ret (nth (Z.to_nat j) items VNone)
  else raise (IndexError "tuple index out of range").

(** ** class NonLazyTensor(LazyTensor) *)

(** self.tensor *)
Definition self_tensor (self : value) : M Base value :=
  fun h =>
    match deref h self with
    | Some (ONonLazy _ t) => (inr t, h)
    | _ => (inl (no_attribute h self "tensor"), h)
    end.

(** super(NonLazyTensor, self).__init__(tsr) *)
Definition super_init (args : list value) : M Base Base :=
  fun h => (LazyTensor_init h args, h).

(** NonLazyTensor(tsr): __init__ on a new instance. *)
Definition NonLazyTensor (tsr : value) : M Base value :=
  t <- read (fun h => is_tensor h tsr) ;;
  if negb t then
    name <- read (fun h => class_name h tsr) ;;
    raise (RuntimeError ("NonLazyTensor must take a torch.Tensor; got " ++ name)%string)
  else
    base <- super_init [tsr] ;;
    alloc (ONonLazy base tsr).

Definition _get_indices (self left_indices right_indices : value)
    (batch_indices : list value) : M Base value :=
  t <- self_tensor self ;;
  tensor_getitem t (batch_indices ++ [left_indices; right_indices]).

Definition _getitem (self : value) (indices : list value) : M Base value :=
  t <- self_tensor self ;;
  res <- tensor_getitem t indices ;;
  row_index <- tuple_getitem indices (-2) ;;
  col_index <- tuple_getitem indices (-1) ;;
  raw <- read (fun h => is_int row_index || is_tensor h row_index
                        || is_int col_index || is_tensor h col_index) ;;
  if raw then ret res else NonLazyTensor res.

Definition _matmul (self rhs : value) : M Base value :=
  t <- self_tensor self ;;
  torch_matmul t rhs.

Definition _quad_form_derivative (self left_vecs right_vecs : value) : M Base value :=
  res <- tensor_matmul left_vecs (tensor_transpose right_vecs (-1) (-2)) ;;
  ret (VTuple [res]).

Definition _size (self : value) : M Base value :=
  t <- self_tensor self ;;
  tensor_size t.

Definition _transpose_nonbatch (self : value) : M Base value :=
  t <- self_tensor self ;;
  tt <- tensor_transpose t (-1) (-2) ;;
  NonLazyTensor tt.

Definition _t_matmul (self rhs : value) : M Base value :=
  t <- self_tensor self ;;
  tt <- tensor_transpose t (-1) (-2) ;;
  torch_matmul tt rhs.

Definition diag (self : value) : M Base value :=
  t <- self_tensor self ;;
  tensor_diagonal t (-2) (-1).

Definition evaluate (self : value) : M Base value :=
  self_tensor self.

(** ** def lazify(obj) *)

Definition lazify (obj : value) : M Base value :=
  t <- read (fun h => is_tensor h obj) ;;
  if t then NonLazyTensor obj
  else
    l <- read (fun h => is_LazyTensor h obj) ;;
    if l then ret obj
    else
      name <- read (fun h => class_name h obj) ;;
      raise (TypeError
               ("object of class " ++ name ++ " cannot be made into a LazyTensor")%string).

End Runtime.

(** ** A reference tensor library

    Dense arrays of integers in row-major order: an instance of [Torch] on
    which the adapter can be run.  It covers matrices and batches of
    matrices, integer and slice indexing; what lies outside is rejected with
    [NotImplementedError]. *)

Module Dense.

Record array : Type := { shape : list nat; data : list Z }.

Definition numel (s : list nat) : nat := fold_right Nat.mul 1%nat s.

Definition valid (a : array) : bool :=
  (List.length (data a) =? numel (shape a))%nat.

(** A tensor is an array with as many entries as its shape announces. *)
Definition tensor : Type := { a : array | valid a = true }.

Definition seal (a : array) : result tensor :=
  match bool_dec (valid a) true with
  | left p => inr (exist _ a p)
  | right _ => inl (RuntimeError "shape does not match the number of entries")
  end.

(** The batch dimensions and the last two. *)
Definition split_last2 (s : list nat) : option (list nat * nat * nat) :=
  match rev s with
  | m :: n :: rb => Some (rev rb, n, m)
  | _ => None
  end.

(** The i-th block of sz entries. *)
Definition chunk (sz i : nat) (d : list Z) : list Z := firstn sz (skipn (i * sz) d).

(** *** transpose *)

(** Where entry k of the transposed array comes from, the source having
    blocks of n rows and m columns. *)
Definition src (n m k : nat) : nat :=
  let p := (n * m)%nat in
  ((k / p) * p + ((k mod p) mod n) * m + (k mod p) / n)%nat.

Definition swap_last2 (a : array) : array :=
  match split_last2 (shape a) with
  | Some (b, n, m) =>
      {| shape := b ++ [m; n];
         data := map (fun k => nth (src n m k) (data a) 0)
                     (seq 0 (List.length (data a))) |}
  | None => a
  end.

Definition norm_dim (nd d : Z) : result Z :=
  let d' := if d <? 0 then d + nd else d in
  if (0 <=? d') && (d' <? nd) then inr d'
  else inl (IndexError "Dimension out of range").

Definition transpose_array (a : array) (dim0 dim1 : Z) : result array :=
  let nd := Z.of_nat (List.length (shape a)) in
  match norm_dim nd dim0, norm_dim nd dim1 with
  | inl e, _ => inl e
  | _, inl e => inl e
  | inr d0, inr d1 =>
      if d0 =? d1 then inr a
      else if (Z.min d0 d1 =? nd - 2) && (Z.max d0 d1 =? nd - 1)
           then inr (swap_last2 a)
           else inl (NotImplementedError "transpose of other than the last two dimensions")
  end.

Definition transpose (t : tensor) (dim0 dim1 : Z) : result tensor :=
  match transpose_array (proj1_sig t) dim0 dim1 with
  | inl e => inl e
  | inr a => seal a
  end.

(** *** matmul *)

Definition dot (k : nat) (row col : nat -> Z) : Z :=
  fold_right Z.add 0 (map (fun l => row l * col l) (seq 0 k)).

(** The product of an n-by-k block with a k-by-m block. *)
Definition mm (n k m : nat) (x y : list Z) : list Z :=
  flat_map (fun i =>
    map (fun j => dot k (fun l => nth (i * k + l) x 0) (fun l => nth (l * m + j) y 0))
        (seq 0 m))
    (seq 0 n).

Definition matmul_array (a b : array) : result array :=
  match split_last2 (shape a), split_last2 (shape b) with
  | Some (ba, n, k), Some (bb, k', m) =>
      if negb (k =? k')%nat then inl (RuntimeError "size mismatch")
      else if list_eq_dec Nat.eq_dec ba bb then
        inr {| shape := ba ++ [n; m];
               data := flat_map (fun i => mm n k m (chunk (n * k) i (data a))
                                                   (chunk (k * m) i (data b)))
                                (seq 0 (numel ba)) |}
      else if list_eq_dec Nat.eq_dec bb [] then
        inr {| shape := ba ++ [n; m];
               data := flat_map (fun i => mm n k m (chunk (n * k) i (data a)) (data b))
                                (seq 0 (numel ba)) |}
      else inl (NotImplementedError "matmul with broadcast batch dimensions")
  | _, _ => inl (NotImplementedError "matmul with a vector operand")
  end.

Definition matmul (t u : tensor) : result tensor :=
  match matmul_array (proj1_sig t) (proj1_sig u) with
  | inl e => inl e
  | inr a => seal a
  end.

(** *** diagonal *)

Definition diagonal_array (a : array) (offset dim1 dim2 : Z) : result array :=
  let nd := Z.of_nat (List.length (shape a)) in
  match norm_dim nd dim1, norm_dim nd dim2 with
  | inl e, _ => inl e
  | _, inl e => inl e
  | inr d1, inr d2 =>
      if d1 =? d2 then inl (RuntimeError "diagonal dimensions cannot be identical")
      else if negb ((offset =? 0) && (Z.min d1 d2 =? nd - 2) && (Z.max d1 d2 =? nd - 1))
      then inl (NotImplementedError "diagonal of other than the last two dimensions")
      else
        match split_last2 (shape a) with
        | Some (b, n, m) =>
            inr {| shape := b ++ [Nat.min n m];
                   data := flat_map (fun i =>
                             map (fun j => nth (i * (n * m) + j * m + j) (data a) 0)
                                 (seq 0 (Nat.min n m)))
                             (seq 0 (numel b)) |}
        | None => inl (IndexError "Dimension out of range")
        end
  end.

Definition diagonal (t : tensor) (offset dim1 dim2 : Z) : result tensor :=
  match diagonal_array (proj1_sig t) offset dim1 dim2 with
  | inl e => inl e
  | inr a => seal a
  end.

(** *** indexing *)

(** The positions a slice selects in a dimension of n entries. *)
Definition slice_indices (start stop step : option Z) (n : nat) : result (list nat) :=
  let len := Z.of_nat n in
  let st := match step with Some s => s | None => 1 end in
  let clamp z := if z <? 0 then Z.max (z + len) 0 else Z.min z len in
  let lo := match start with Some z => clamp z | None => 0 end in
  let hi := match stop with Some z => clamp z | None => len end in
  if st =? 0 then inl (ValueError "slice step cannot be zero")
  else if st <? 0 then inl (ValueError "step must be greater than zero")
  else
    let count := if lo <? hi then (hi - lo + st - 1) / st else 0 in
    inr (map (fun k => Z.to_nat (lo + Z.of_nat k * st)) (seq 0 (Z.to_nat count))).

Definition int_index (z : Z) (n : nat) : result nat :=
  let j := if z <? 0 then z + Z.of_nat n else z in
  if (0 <=? j) && (j <? Z.of_nat n) then inr (Z.to_nat j)
  else inl (IndexError "index is out of bounds").

Fixpoint index_shape (idx : list (index tensor)) (s : list nat) : result (list nat) :=
  match idx with
  | [] => inr s
  | i :: rest =>
      match s with
      | [] => inl (IndexError "too many indices for tensor")
      | n :: s' =>
          match i with
          | IVal (VInt z) =>
              match int_index z n with
              | inl e => inl e
              | inr _ => index_shape rest s'
              end
          | IVal (VSlice start stop step) =>
              match slice_indices start stop step n with
              | inl e => inl e
              | inr js =>
                  match index_shape rest s' with
                  | inl e => inl e
                  | inr sub => inr (List.length js :: sub)
                  end
              end
          | IVal (VStr _) =>
              inl (IndexError "only integers, slices, ellipsis, None and tensors are valid indices")
          | _ => inl (NotImplementedError "index other than an integer or a slice")
          end
      end
  end.

Fixpoint index_data (idx : list (index tensor)) (s : list nat) (d : list Z) : list Z :=
  match idx, s with
  | IVal (VInt z) :: rest, n :: s' =>
      match int_index z n with
      | inr j => index_data rest s' (chunk (numel s') j d)
      | inl _ => []
      end
  | IVal (VSlice start stop step) :: rest, n :: s' =>
      match slice_indices start stop step n with
      | inr js => flat_map (fun j => index_data rest s' (chunk (numel s') j d)) js
      | inl _ => []
      end
  | _, _ => d
  end.

Definition getitem (t : tensor) (idx : list (index tensor)) : result tensor :=
  match index_shape idx (shape (proj1_sig t)) with
  | inl e => inl e
  | inr s => seal {| shape := s; data := index_data idx (shape (proj1_sig t)) (data (proj1_sig t)) |}
  end.

Definition size (t : tensor) : list nat := shape (proj1_sig t).

#[export] Instance torch : Torch :=
  Build_Torch tensor matmul transpose diagonal size getitem.

(** A base class that records the arguments it was constructed with. *)
#[export] Instance base : LazyTensorBase torch := {|
  Base := list value;
  LazyTensor_init := fun _ args => inr args
|}.

(** Building a tensor from its shape and entries. *)
Definition make (s : list nat) (d : list Z)
    (ok : valid {| shape := s; data := d |} = true) : tensor :=
  exist _ {| shape := s; data := d |} ok.

End Dense.

(** ** The vocabulary of the statements *)

Section Vocabulary.
Context {torch : Torch} {lazy : LazyTensorBase torch}.

Local Open Scope py_scope.

(** [self] is a NonLazyTensor whose [self.tensor] is the tensor object
    [tv], and that object holds [T]. *)
Definition wraps (h : heap Base) (self tv : value) (T : Tensor) : Prop :=
  (exists b, deref h self = Some (ONonLazy b tv)) /\ tensor_at h tv = Some T.

(** The assumption made on the base class, whose initialiser is not part
    of the module: it does not reject a tensor argument. *)
Definition base_accepts_tensors : Prop :=
  forall (h : heap Base) (tsr : value),
    is_tensor h tsr = true -> exists b, LazyTensor_init h [tsr] = inr b.

(** A reference that is not dangling; immediate values never are. *)
Definition in_store (h : heap Base) (v : value) : bool :=
  match v with
  | VRef l => (l <? List.length h)%nat
  | _ => true
  end.

(** The dense content of an outcome: the exception raised, or the tensor
    returned, be it returned raw or wrapped in a NonLazyTensor. *)
Definition dense_result (r : result value * heap Base) : option (result Tensor) :=
  match r with
  | (inl e, _) => Some (inl e)
  | (inr v, h) =>
      match deref h v with
      | Some (OTensor t) => Some (inr t)
      | Some (ONonLazy _ tv) => option_map inr (tensor_at h tv)
      | _ => None
      end
  end.

(** Whether an outcome is a returned raw tensor. *)
Definition returns_raw_tensor (r : result value * heap Base) : bool :=
  match r with
  | (inr v, h) => is_tensor h v
  | (inl _, _) => false
  end.

(** [h'] keeps every object of [h] as it was and may hold new ones. *)
Definition extends (h h' : heap Base) : Prop := exists new, h' = h ++ new.

Definition frame {A} (m : M Base A) : Prop := forall h, extends h (snd (m h)).

(** The calls a NonLazyTensor answers. *)
Inductive method : Type :=
  | Call_matmul (rhs : value)
  | Call_t_matmul (rhs : value)
  | Call_getitem (indices : list value)
  | Call_get_indices (left_indices right_indices : value) (batch_indices : list value)
  | Call_quad_form_derivative (left_vecs right_vecs : value)
  | Call_size
  | Call_transpose_nonbatch
  | Call_diag
  | Call_evaluate.

Definition call (self : value) (m : method) : M Base value :=
  match m with
  | Call_matmul rhs => _matmul self rhs
  | Call_t_matmul rhs => _t_matmul self rhs
  | Call_getitem indices => _getitem self indices
  | Call_get_indices l r b => _get_indices self l r b
  | Call_quad_form_derivative l r => _quad_form_derivative self l r
  | Call_size => _size self
  | Call_transpose_nonbatch => _transpose_nonbatch self
  | Call_diag => diag self
  | Call_evaluate => evaluate self
  end.

(** *** What the specification says the forwarding methods compute

    Written from the specification's words, on the wrapped tensor [T]. *)

(** torch.matmul(T, rhs) *)
Definition spec_matmul (T rhs : value) : M Base value :=
  torch_matmul T rhs.

(** torch.matmul(T.transpose(-1, -2), rhs) *)
Definition spec_t_matmul (T rhs : value) : M Base value :=
  tt <- tensor_transpose T (-1) (-2) ;;
  torch_matmul tt rhs.

(** T[batch_indices..., left_indices, right_indices] *)
Definition spec_get_indices (T left_indices right_indices : value)
    (batch_indices : list value) : M Base value :=
  tensor_getitem T (batch_indices ++ [left_indices; right_indices]).

(** T[indices] *)
Definition spec_getitem (T : value) (indices : list value) : M Base value :=
  tensor_getitem T indices.

(** The second half of the indexing claim as the specification words it:
    for every index tuple, the entries [_getitem] produces are those of
    [T[indices]]. *)
Definition getitem_entries_for_every_tuple : Prop :=
  forall (h : heap Base) (self tv : value) (T : Tensor) (indices : list value),
    wraps h self tv T ->
    dense_result (_getitem self indices h) = dense_result (spec_getitem tv indices h).

End Vocabulary.

(** ** A store to run the adapter on *)

Module Example.

#[local] Existing Instance Dense.torch.
#[local] Existing Instance Dense.base.

(** [[1, 2], [3, 4]] *)
Definition A : Dense.tensor := Dense.make [2; 2]%nat [1; 2; 3; 4] eq_refl.

(** [[1, 2, 3], [4, 5, 6]] *)
Definition B : Dense.tensor := Dense.make [2; 3]%nat [1; 2; 3; 4; 5; 6] eq_refl.

(** Two tensors, a NonLazyTensor around the first and one around the
    second, a lazy tensor of another class and an unrelated object. *)
Definition store : heap Base :=
  [ OTensor A;
    OTensor B;
    ONonLazy [VRef 0%nat] (VRef 0%nat);
    ONonLazy [VRef 1%nat] (VRef 1%nat);
    OLazy "DiagLazyTensor" [];
    OOther "dict" ].

Definition a : value := VRef 0%nat.
Definition b : value := VRef 1%nat.
Definition lazy_a : value := VRef 2%nat.
Definition lazy_b : value := VRef 3%nat.

End Example.

(** ** The reference library satisfies the laws *)

Module DenseFacts.
Import Dense.

Lemma numel_app (a b : list nat) : numel (a ++ b) = (numel a * numel b)%nat.
Proof.
  induction a as [|x a IH]; simpl.
  - lia.
  - rewrite IH. lia.
Qed.

Lemma split_last2_app (b : list nat) (n m : nat) :
  split_last2 (b ++ [n; m]) = Some (b, n, m).
Proof.
  unfold split_last2. rewrite rev_app_distr. simpl.
  now rewrite rev_involutive.
Qed.

Lemma split_last2_inv (s b : list nat) (n m : nat) :
  split_last2 s = Some (b, n, m) -> s = b ++ [n; m].
Proof.
  unfold split_last2. intros H.
  destruct (rev s) as [|m' [|n' rb]] eqn:E; try discriminate.
  injection H as <- <- <-.
  rewrite <- (rev_involutive s), E. simpl.
  now rewrite <- app_assoc.
Qed.

Lemma split_last2_some (s : list nat) :
  (2 <= List.length s)%nat -> exists b n m, split_last2 s = Some (b, n, m).
Proof.
  intros H. unfold split_last2.
  assert (L : List.length (rev s) = List.length s) by apply length_rev.
  destruct (rev s) as [|m [|n rb]]; simpl in L; try lia.
  now exists (rev rb), n, m.
Qed.

(** Tensors with the same array are equal: validity is a boolean fact. *)
Lemma tensor_ext (t u : tensor) : proj1_sig t = proj1_sig u -> t = u.
Proof.
  destruct t as [a p], u as [b q]. simpl. intros ->.
  f_equal. apply UIP_dec, bool_dec.
Qed.

Lemma seal_valid (a : array) :
  valid a = true -> exists t, seal a = inr t /\ proj1_sig t = a.
Proof.
  intros V. unfold seal.
  destruct (bool_dec (valid a) true) as [p|np].
  - now exists (exist _ a p).
  - contradiction.
Qed.

Lemma seal_inv (a : array) (t : tensor) : seal a = inr t -> proj1_sig t = a.
Proof.
  unfold seal. destruct (bool_dec (valid a) true); intros H.
  - now injection H as <-.
  - discriminate.
Qed.

Lemma nth_map_seq (f : nat -> Z) (len k : nat) :
  (k < len)%nat -> nth k (map f (seq 0 len)) 0 = f k.
Proof.
  intros H.
  rewrite (nth_indep _ 0 (f 0%nat)) by now rewrite length_map, length_seq.
  rewrite map_nth, seq_nth by exact H. reflexivity.
Qed.

(** The index arithmetic of a double transposition. *)
Lemma src_src (n m b k : nat) :
  (k < b * (n * m))%nat ->
  (src m n k < b * (n * m))%nat /\ src n m (src m n k) = k.
Proof.
  intros Hk.
  assert (Hn : (0 < n)%nat) by nia.
  assert (Hm : (0 < m)%nat) by nia.
  unfold src.
  set (q := (k / (m * n))%nat).
  set (r := (k mod (m * n))%nat).
  assert (Ek : k = (m * n * q + r)%nat) by (apply Nat.div_mod_eq).
  assert (Hr : (r < m * n)%nat) by (apply Nat.mod_upper_bound; nia).
  set (x := (r mod m)%nat).
  set (y := (r / m)%nat).
  assert (Er : r = (m * y + x)%nat) by (apply Nat.div_mod_eq).
  assert (Hx : (x < m)%nat) by (apply Nat.mod_upper_bound; lia).
  assert (Hy : (y < n)%nat) by nia.
  assert (Hxy : (x * n + y < n * m)%nat) by nia.
  assert (Dq : ((q * (m * n) + x * n + y) / (n * m) = q)%nat).
  { symmetry. apply Nat.div_unique with (r := (x * n + y)%nat); [exact Hxy | nia]. }
  assert (Mq : ((q * (m * n) + x * n + y) mod (n * m) = x * n + y)%nat).
  { symmetry. apply Nat.mod_unique with (q := q); [exact Hxy | nia]. }
  assert (Dx : ((x * n + y) / n = x)%nat).
  { symmetry. apply Nat.div_unique with (r := y); [exact Hy | nia]. }
  assert (My : ((x * n + y) mod n = y)%nat).
  { symmetry. apply Nat.mod_unique with (q := x); [exact Hy | nia]. }
  split.
  - assert (q < b)%nat by nia. nia.
  - rewrite Dq, Mq, Dx, My. nia.
Qed.

Lemma swap_last2_shape (a : array) (b : list nat) (n m : nat) :
  shape a = b ++ [n; m] ->
  swap_last2 a =
    {| shape := b ++ [m; n];
       data := map (fun k => nth (src n m k) (data a) 0)
                   (seq 0 (List.length (data a))) |}.
Proof.
  intros E. unfold swap_last2. now rewrite E, split_last2_app.
Qed.

Lemma swap_last2_valid (a : array) : valid a = true -> valid (swap_last2 a) = true.
Proof.
  unfold valid. intros V. unfold swap_last2.
  destruct (split_last2 (shape a)) as [[[b n] m]|] eqn:E; [|exact V].
  apply split_last2_inv in E. simpl.
  rewrite length_map, length_seq.
  apply Nat.eqb_eq in V. apply Nat.eqb_eq.
  rewrite V, E, !numel_app. simpl. lia.
Qed.

Lemma swap_last2_involutive (a : array) :
  valid a = true -> swap_last2 (swap_last2 a) = a.
Proof.
  intros V. destruct a as [s d].
  destruct (split_last2 s) as [[[b n] m]|] eqn:E.
  - apply split_last2_inv in E. subst s.
    unfold valid in V. simpl in V. apply Nat.eqb_eq in V.
    rewrite numel_app in V. simpl in V.
    rewrite (swap_last2_shape {| shape := b ++ [n; m]; data := d |} b n m eq_refl).
    simpl.
    match goal with
    | |- swap_last2 ?x = _ => rewrite (swap_last2_shape x b m n eq_refl)
    end.
    simpl. f_equal.
    rewrite length_map, length_seq.
    apply nth_ext with (d := 0) (d' := 0).
    + now rewrite length_map, length_seq.
    + rewrite length_map, length_seq. intros k Hk.
      assert (Hk' : (k < numel b * (n * m))%nat) by lia.
      destruct (src_src n m (numel b) k Hk') as [Hs Es].
      rewrite nth_map_seq by exact Hk.
      rewrite nth_map_seq by lia.
      now rewrite Es.
  - unfold swap_last2. simpl. rewrite E. unfold swap_last2. simpl. now rewrite E.
Qed.

Lemma transpose_array_last2 (a : array) :
  transpose_array a (-1) (-2) =
    if (2 <=? List.length (shape a))%nat then inr (swap_last2 a)
    else inl (IndexError "Dimension out of range").
Proof.
  unfold transpose_array, norm_dim.
  destruct (Nat.leb_spec 2 (List.length (shape a))) as [H|H].
  - replace (-1 <? 0) with true by reflexivity.
    replace (-2 <? 0) with true by reflexivity.
    set (nd := Z.of_nat (List.length (shape a))).
    assert (2 <= nd) by lia.
    replace ((0 <=? -1 + nd) && (-1 + nd <? nd)) with true by (symmetry; apply andb_true_iff; lia).
    replace ((0 <=? -2 + nd) && (-2 + nd <? nd)) with true by (symmetry; apply andb_true_iff; lia).
    replace (-1 + nd =? -2 + nd) with false by (symmetry; lia).
    replace ((Z.min (-1 + nd) (-2 + nd) =? nd - 2) && (Z.max (-1 + nd) (-2 + nd) =? nd - 1))
      with true by (symmetry; apply andb_true_iff; lia).
    reflexivity.
  - destruct (shape a) as [|x [|y l]]; simpl in *; try lia; reflexivity.
Qed.

#[export] Instance laws : TorchLaws torch.
Proof.
  split.
  - intros [a V] H. simpl in *. unfold transpose, size in *. simpl in *.
    rewrite transpose_array_last2.
    apply Nat.leb_le in H. rewrite H.
    destruct (seal_valid _ (swap_last2_valid a V)) as [t [E _]]. eauto.
  - intros [a V] t' H. simpl in *. unfold transpose in *. simpl in *.
    rewrite transpose_array_last2 in H.
    destruct (2 <=? List.length (shape a))%nat eqn:L; [|discriminate].
    apply seal_inv in H.
    rewrite transpose_array_last2.
    assert (L' : (2 <=? List.length (shape (proj1_sig t')))%nat = true).
    { rewrite H. apply Nat.leb_le in L. apply Nat.leb_le.
      destruct (split_last2_some _ L) as [b [n [m E]]].
      apply split_last2_inv in E.
      rewrite (swap_last2_shape a b n m E). simpl.
      rewrite E in L. rewrite length_app in *. simpl in *. lia. }
    rewrite L', H, (swap_last2_involutive a V).
    destruct (seal_valid a V) as [t [E P]].
    rewrite E. f_equal. now apply tensor_ext.
Qed.

End DenseFacts.

(** ** The store only grows *)

Section StoreFacts.
Context {torch : Torch} {lazy : LazyTensorBase torch}.

Local Open Scope py_scope.
Local Open Scope nat_scope.

Implicit Types (h : heap Base) (v self tv rhs : value).

Lemma lookup_app h new l o :
  lookup h l = Some o -> lookup (h ++ new) l = Some o.
Proof.
  unfold lookup. intros H.
  rewrite nth_error_app1; [exact H|].
  apply nth_error_Some. congruence.
Qed.

Lemma lookup_app_lt h new l :
  l < List.length h -> lookup (h ++ new) l = lookup h l.
Proof. unfold lookup. intros H. now rewrite nth_error_app1. Qed.

Lemma lookup_new h o : lookup (h ++ [o]) (List.length h) = Some o.
Proof.
  unfold lookup. rewrite nth_error_app2 by lia.
  now rewrite Nat.sub_diag.
Qed.

Lemma deref_app h new v o :
  deref h v = Some o -> deref (h ++ new) v = Some o.
Proof. destruct v; simpl; try discriminate. apply lookup_app. Qed.

Lemma tensor_at_app h new v t :
  tensor_at h v = Some t -> tensor_at (h ++ new) v = Some t.
Proof.
  unfold tensor_at. destruct (deref h v) as [o|] eqn:E; [|discriminate].
  now rewrite (deref_app _ new _ _ E).
Qed.

Lemma tensor_at_new h t : tensor_at (h ++ [OTensor t]) (VRef (List.length h)) = Some t.
Proof. unfold tensor_at. simpl. now rewrite lookup_new. Qed.

Lemma is_tensor_new h t : is_tensor (h ++ [OTensor t]) (VRef (List.length h)) = true.
Proof. unfold is_tensor. now rewrite tensor_at_new. Qed.

Lemma is_tensor_app h new v :
  in_store h v = true -> is_tensor (h ++ new) v = is_tensor h v.
Proof.
  unfold is_tensor, tensor_at. destruct v; simpl; try reflexivity.
  intros H. apply Nat.ltb_lt in H. now rewrite lookup_app_lt.
Qed.

Lemma is_tensor_at h v : is_tensor h v = true -> exists t, tensor_at h v = Some t.
Proof. unfold is_tensor. destruct (tensor_at h v); [eauto | discriminate]. Qed.

Lemma wraps_app h new self tv (T : Tensor) :
  wraps h self tv T -> wraps (h ++ new) self tv T.
Proof.
  intros [[b D] E]. split.
  - exists b. now apply deref_app.
  - now apply tensor_at_app.
Qed.

Lemma wraps_new h b tv (T : Tensor) :
  tensor_at h tv = Some T ->
  wraps (h ++ [ONonLazy b tv]) (VRef (List.length h)) tv T.
Proof.
  intros E. split.
  - exists b. simpl. apply lookup_new.
  - now apply tensor_at_app.
Qed.

Lemma extends_refl h : extends h h.
Proof. exists []. now rewrite app_nil_r. Qed.

Lemma extends_trans h1 h2 h3 : extends h1 h2 -> extends h2 h3 -> extends h1 h3.
Proof.
  intros [n1 ->] [n2 ->]. exists (n1 ++ n2). now rewrite app_assoc.
Qed.

Lemma extends_lookup h h' l o :
  extends h h' -> lookup h l = Some o -> lookup h' l = Some o.
Proof. intros [new ->]. apply lookup_app. Qed.

(** *** Every computation of the module only adds objects *)

Lemma frame_ret {A} (a : A) : frame (ret a).
Proof. intros h. apply extends_refl. Qed.

Lemma frame_raise {A} (e : exn) : frame (raise (A := A) e).
Proof. intros h. apply extends_refl. Qed.

Lemma frame_lift {A} (r : result A) : frame (lift r).
Proof. intros h. apply extends_refl. Qed.

Lemma frame_read {A} (f : heap Base -> A) : frame (read f).
Proof. intros h. apply extends_refl. Qed.

Lemma frame_alloc (o : obj Base) : frame (alloc o).
Proof. intros h. now exists [o]. Qed.

Lemma frame_bind {A B} (m : M Base A) (k : A -> M Base B) :
  frame m -> (forall a, frame (k a)) -> frame (bind m k).
Proof.
  intros Hm Hk h. unfold bind. specialize (Hm h).
  destruct (m h) as [[e|a] h']; simpl in *.
  - exact Hm.
  - eapply extends_trans; [exact Hm | apply Hk].
Qed.

Lemma frame_if {A} (c : bool) (m1 m2 : M Base A) :
  frame m1 -> frame m2 -> frame (if c then m1 else m2).
Proof. now destruct c. Qed.

Lemma frame_tensor_self attr v : frame (tensor_self attr v).
Proof.
  intros h. unfold tensor_self. destruct (tensor_at h v); apply extends_refl.
Qed.

Lemma frame_tensor_arg what v : frame (tensor_arg what v).
Proof.
  intros h. unfold tensor_arg. destruct (tensor_at h v); apply extends_refl.
Qed.

Lemma frame_self_tensor self : frame (self_tensor self).
Proof.
  intros h. unfold self_tensor.
  destruct (deref h self) as [[]|]; apply extends_refl.
Qed.

Lemma frame_super_init args : frame (super_init args).
Proof. intros h. apply extends_refl. Qed.

Lemma frame_tuple_getitem items i : frame (tuple_getitem items i).
Proof.
  unfold tuple_getitem.
  match goal with |- frame (if ?c then _ else _) => destruct c end.
  - apply frame_ret.
  - apply frame_raise.
Qed.

Create HintDb frame.
Hint Resolve frame_ret frame_raise frame_lift frame_read frame_alloc frame_bind
  frame_if frame_tensor_self frame_tensor_arg frame_self_tensor frame_super_init
  frame_tuple_getitem : frame.

Lemma frame_NonLazyTensor tsr : frame (NonLazyTensor tsr).
Proof. unfold NonLazyTensor. auto 10 with frame. Qed.

Hint Resolve frame_NonLazyTensor : frame.

Lemma frame_call self (m : method) : frame (call self m).
Proof.
  destruct m; simpl;
    unfold _matmul, _t_matmul, _getitem, _get_indices, _quad_form_derivative,
      _size, _transpose_nonbatch, diag, evaluate,
      torch_matmul, tensor_matmul, tensor_transpose, tensor_diagonal,
      tensor_size, tensor_getitem;
    auto 20 with frame.
Qed.

End StoreFacts.

(** ** How the calls run *)

Section Runs.
Context {torch : Torch} {lazy : LazyTensorBase torch}.

Local Open Scope py_scope.
Local Open Scope nat_scope.

Implicit Types (h : heap Base) (v self tv rhs : value).

Lemma self_tensor_run h self b tv :
  deref h self = Some (ONonLazy b tv) -> self_tensor self h = (inr tv, h).
Proof. intros D. unfold self_tensor. now rewrite D. Qed.

Lemma torch_matmul_run h a b (X Y : Tensor) :
  tensor_at h a = Some X -> tensor_at h b = Some Y ->
  torch_matmul a b h =
    match matmul X Y with
    | inl e => (inl e, h)
    | inr P => (inr (VRef (List.length h)), h ++ [OTensor P])
    end.
Proof.
  intros EX EY. unfold torch_matmul, bind, tensor_arg, lift, alloc.
  rewrite EX, EY. now destruct (matmul X Y).
Qed.

Lemma tensor_transpose_run h v (X : Tensor) (d0 d1 : Z) :
  tensor_at h v = Some X ->
  tensor_transpose v d0 d1 h =
    match transpose X d0 d1 with
    | inl e => (inl e, h)
    | inr X' => (inr (VRef (List.length h)), h ++ [OTensor X'])
    end.
Proof.
  intros EX. unfold tensor_transpose, bind, tensor_self, lift, alloc.
  rewrite EX. now destruct (transpose X d0 d1).
Qed.

Lemma tensor_diagonal_run h v (X : Tensor) (d1 d2 : Z) :
  tensor_at h v = Some X ->
  tensor_diagonal v d1 d2 h =
    match diagonal X 0 d1 d2 with
    | inl e => (inl e, h)
    | inr D => (inr (VRef (List.length h)), h ++ [OTensor D])
    end.
Proof.
  intros EX. unfold tensor_diagonal, bind, tensor_self, lift, alloc.
  rewrite EX. now destruct (diagonal X 0 d1 d2).
Qed.

Lemma tensor_getitem_run h v (X : Tensor) (indices : list value) :
  tensor_at h v = Some X ->
  tensor_getitem v indices h =
    match getitem X (map (resolve_index h) indices) with
    | inl e => (inl e, h)
    | inr r => (inr (VRef (List.length h)), h ++ [OTensor r])
    end.
Proof.
  intros EX. unfold tensor_getitem, bind, tensor_self, read, lift, alloc.
  rewrite EX. now destruct (getitem X (map (resolve_index h) indices)).
Qed.

Lemma NonLazyTensor_run h tsr :
  is_tensor h tsr = true ->
  NonLazyTensor tsr h =
    match LazyTensor_init h [tsr] with
    | inl e => (inl e, h)
    | inr b => (inr (VRef (List.length h)), h ++ [ONonLazy b tsr])
    end.
Proof.
  intros E. unfold NonLazyTensor, bind, read, super_init, alloc.
  rewrite E. simpl. now destruct (LazyTensor_init h [tsr]).
Qed.

Lemma NonLazyTensor_reject h tsr :
  is_tensor h tsr = false ->
  NonLazyTensor tsr h =
    (inl (RuntimeError
            ("NonLazyTensor must take a torch.Tensor; got " ++ class_name h tsr)%string), h).
Proof.
  intros E. unfold NonLazyTensor, bind, read, raise. now rewrite E.
Qed.

Lemma tuple_getitem_last (items : list value) (k : nat) h :
  0 < k <= List.length items ->
  tuple_getitem items (- Z.of_nat k) h =
    (inr (nth (List.length items - k) items VNone), h).
Proof.
  intros H. unfold tuple_getitem, ret.
  replace (- Z.of_nat k <? 0)%Z with true by (symmetry; apply Z.ltb_lt; lia).
  replace ((0 <=? - Z.of_nat k + Z.of_nat (List.length items))
           && (- Z.of_nat k + Z.of_nat (List.length items) <? Z.of_nat (List.length items)))%Z
    with true by (symmetry; apply andb_true_iff; split; [apply Z.leb_le | apply Z.ltb_lt]; lia).
  do 3 f_equal. lia.
Qed.

Lemma tuple_getitem_short (items : list value) h :
  List.length items < 2 ->
  tuple_getitem items (-2) h = (inl (IndexError "tuple index out of range"), h).
Proof.
  intros H. destruct items as [|x [|y l]]; simpl in H; try lia; reflexivity.
Qed.

Lemma dense_result_new_tensor h (t : Tensor) :
  dense_result (inr (VRef (List.length h)), h ++ [OTensor t]) = Some (inr t).
Proof. unfold dense_result. simpl. now rewrite lookup_new. Qed.

Lemma dense_result_wrapped h w tv (T : Tensor) :
  wraps h w tv T -> dense_result (inr w, h) = Some (inr T).
Proof.
  intros [[b D] E]. unfold dense_result. now rewrite D, E.
Qed.

Lemma matmul_dense h self tv rhs (T R : Tensor) :
  wraps h self tv T -> tensor_at h rhs = Some R ->
  dense_result (_matmul self rhs h) = Some (matmul T R).
Proof.
  intros [[b D] E] ER. unfold _matmul, bind.
  rewrite (self_tensor_run _ _ _ _ D), (torch_matmul_run _ _ _ _ _ E ER).
  destruct (matmul T R); [reflexivity | apply dense_result_new_tensor].
Qed.

Lemma t_matmul_dense h self tv rhs (T R : Tensor) :
  wraps h self tv T -> tensor_at h rhs = Some R ->
  dense_result (_t_matmul self rhs h) =
    Some (match transpose T (-1) (-2) with
          | inl e => inl e
          | inr T' => matmul T' R
          end).
Proof.
  intros [[b D] E] ER. unfold _t_matmul, bind.
  rewrite (self_tensor_run _ _ _ _ D), (tensor_transpose_run _ _ _ _ _ E).
  destruct (transpose T (-1) (-2)) as [e|T']; [reflexivity|].
  rewrite (torch_matmul_run _ _ _ T' R (tensor_at_new _ _) (tensor_at_app _ _ _ _ ER)).
  destruct (matmul T' R); [reflexivity | apply dense_result_new_tensor].
Qed.

Lemma transpose_nonbatch_fail h self tv (T : Tensor) e :
  wraps h self tv T -> transpose T (-1) (-2) = inl e ->
  _transpose_nonbatch self h = (inl e, h).
Proof.
  intros [[b D] E] Et. unfold _transpose_nonbatch, bind.
  rewrite (self_tensor_run _ _ _ _ D), (tensor_transpose_run _ _ _ _ _ E), Et.
  reflexivity.
Qed.

Lemma transpose_nonbatch_run h self tv (T T' : Tensor) :
  base_accepts_tensors ->
  wraps h self tv T -> transpose T (-1) (-2) = inr T' ->
  exists w h' tv',
    _transpose_nonbatch self h = (inr w, h') /\ wraps h' w tv' T' /\ extends h h'.
Proof.
  intros Hb [[b D] E] Et. unfold _transpose_nonbatch, bind.
  rewrite (self_tensor_run _ _ _ _ D), (tensor_transpose_run _ _ _ _ _ E), Et.
  rewrite (NonLazyTensor_run _ _ (is_tensor_new h T')).
  destruct (Hb _ _ (is_tensor_new h T')) as [b' Eb]. rewrite Eb.
  eexists _, _, _. split; [reflexivity|]. split.
  - apply wraps_new, tensor_at_new.
  - exists [OTensor T'; ONonLazy b' (VRef (List.length h))].
    now rewrite <- app_assoc.
Qed.

End Runs.

(** ** The claims *)

Section Claims.
Context {torch : Torch} {lazy : LazyTensorBase torch}.

Local Open Scope py_scope.
Local Open Scope nat_scope.

Implicit Types (h : heap Base) (v self tv rhs : value).

(** C1. For a NonLazyTensor wrapping T and a tensor rhs, [_matmul(rhs)]
    is torch.matmul(T, rhs) and [_t_matmul(rhs)] is
    torch.matmul(T.transpose(-1, -2), rhs): each call runs exactly as the
    native expression does, and yields the native product (or raises the
    native exception when the shapes do not fit). *)
Theorem matmul_delegates h self tv rhs (T R : Tensor) :
  wraps h self tv T -> tensor_at h rhs = Some R ->
  _matmul self rhs h = spec_matmul tv rhs h
  /\ dense_result (_matmul self rhs h) = Some (matmul T R)
  /\ _t_matmul self rhs h = spec_t_matmul tv rhs h
  /\ dense_result (_t_matmul self rhs h) =
       Some (match transpose T (-1) (-2) with
             | inl e => inl e
             | inr T' => matmul T' R
             end).
Proof.
  intros W ER. pose proof W as [[b D] E].
  repeat split.
  - unfold _matmul, bind. now rewrite (self_tensor_run _ _ _ _ D).
  - now apply matmul_dense with (tv := tv).
  - unfold _t_matmul, spec_t_matmul, bind.
    now rewrite (self_tensor_run _ _ _ _ D).
  - now apply t_matmul_dense with (tv := tv).
Qed.

(** C5. For a NonLazyTensor wrapping T, [diag()] is
    T.diagonal(dim1=-2, dim2=-1), the diagonal of the last two
    dimensions, and [_size()] returns T.size(). *)
Theorem diag_and_size_delegate h self tv (T : Tensor) :
  wraps h self tv T ->
  diag self h = tensor_diagonal tv (-2) (-1) h
  /\ dense_result (diag self h) = Some (diagonal T 0 (-2) (-1))
  /\ _size self h = (inr (VSize (size T)), h).
Proof.
  intros [[b D] E]. repeat split.
  - unfold diag, bind. now rewrite (self_tensor_run _ _ _ _ D).
  - unfold diag, bind.
    rewrite (self_tensor_run _ _ _ _ D), (tensor_diagonal_run _ _ _ _ _ E).
    destruct (diagonal T 0 (-2) (-1)); [reflexivity | apply dense_result_new_tensor].
  - unfold _size, bind. rewrite (self_tensor_run _ _ _ _ D).
    unfold tensor_size, bind, tensor_self. now rewrite E.
Qed.

(** C7. For tensors left_vecs and right_vecs, [_quad_form_derivative]
    returns a one-element tuple whose entry is the new tensor
    left_vecs.matmul(right_vecs.transpose(-1, -2)) (or raises what the
    native calls raise), and the outcome is the same whatever [self] is. *)
Theorem quad_form_derivative_spec h self left_vecs right_vecs (L R : Tensor) :
  tensor_at h left_vecs = Some L -> tensor_at h right_vecs = Some R ->
  _quad_form_derivative self left_vecs right_vecs h =
    match transpose R (-1) (-2) with
    | inl e => (inl e, h)
    | inr R' =>
        match matmul L R' with
        | inl e => (inl e, h ++ [OTensor R'])
        | inr P =>
            (inr (VTuple [VRef (S (List.length h))]), (h ++ [OTensor R']) ++ [OTensor P])
        end
    end
  /\ forall self',
       _quad_form_derivative self' left_vecs right_vecs h =
       _quad_form_derivative self left_vecs right_vecs h.
Proof.
  intros EL ER. split; [|reflexivity].
  unfold _quad_form_derivative, tensor_matmul, bind, tensor_self.
  rewrite EL, (tensor_transpose_run _ _ _ _ _ ER).
  destruct (transpose R (-1) (-2)) as [e|R']; [reflexivity|].
  unfold tensor_arg. rewrite tensor_at_new. unfold lift, alloc, ret.
  destruct (matmul L R') as [e|P]; [reflexivity|].
  rewrite length_app. simpl. now rewrite Nat.add_1_r.
Qed.

(** C10. No call mutates the wrapped storage: after [_matmul],
    [_t_matmul], [_getitem], [_get_indices], [_quad_form_derivative],
    [_size], [_transpose_nonbatch], [diag] or [evaluate], whatever the
    arguments and whether it returned or raised, [self.tensor] is the
    same tensor object, holding the same tensor, and every object that
    was stored is as it was. *)
Theorem calls_do_not_mutate h self (m : method) b tv (T : Tensor) :
  deref h self = Some (ONonLazy b tv) -> tensor_at h tv = Some T ->
  let h' := snd (call self m h) in
  deref h' self = Some (ONonLazy b tv)
  /\ tensor_at h' tv = Some T
  /\ forall l o, lookup h l = Some o -> lookup h' l = Some o.
Proof.
  intros D E h'.
  destruct (frame_call self m h) as [new Hn].
  fold h' in Hn. rewrite Hn. repeat split.
  - now apply deref_app.
  - now apply tensor_at_app.
  - intros l o. apply lookup_app.
Qed.

(** C3. The constructor raises the type-check error (a RuntimeError
    naming the argument's class) for every argument that is not a torch
    tensor; for every tensor argument it succeeds, the new instance
    having that very tensor as its [self.tensor]; so it raises if and
    only if the argument is not a tensor. *)
Theorem constructor_type_check h tsr :
  base_accepts_tensors ->
  (is_tensor h tsr = false ->
     NonLazyTensor tsr h =
       (inl (RuntimeError
               ("NonLazyTensor must take a torch.Tensor; got " ++ class_name h tsr)%string), h))
  /\ (is_tensor h tsr = true ->
        exists b, NonLazyTensor tsr h =
                    (inr (VRef (List.length h)), h ++ [ONonLazy b tsr])
                  /\ self_tensor (VRef (List.length h)) (h ++ [ONonLazy b tsr]) =
                       (inr tsr, h ++ [ONonLazy b tsr]))
  /\ ((exists e, fst (NonLazyTensor tsr h) = inl e) <-> is_tensor h tsr = false).
Proof.
  intros Hb.
  assert (Ok : is_tensor h tsr = true ->
               exists b, NonLazyTensor tsr h =
                           (inr (VRef (List.length h)), h ++ [ONonLazy b tsr])).
  { intros E. destruct (Hb h tsr E) as [b Eb]. exists b.
    now rewrite (NonLazyTensor_run _ _ E), Eb. }
  repeat split.
  - apply NonLazyTensor_reject.
  - intros E. destruct (Ok E) as [b Eb]. exists b. split; [exact Eb|].
    apply self_tensor_run with (b := b). simpl. apply lookup_new.
  - intros [e He]. destruct (is_tensor h tsr) eqn:E; [|reflexivity].
    destruct (Ok eq_refl) as [b Eb]. rewrite Eb in He. discriminate.
  - intros E. rewrite (NonLazyTensor_reject _ _ E). simpl. eauto.
Qed.

(** C2. [lazify] has three behaviours: on a torch tensor it returns
    NonLazyTensor(obj); otherwise, on a LazyTensor, it returns obj itself
    and touches nothing; otherwise it raises a TypeError.  It raises if
    and only if obj is neither a tensor nor a LazyTensor. *)
Theorem lazify_dispatch h obj :
  base_accepts_tensors ->
  (is_tensor h obj = true -> lazify obj h = NonLazyTensor obj h)
  /\ (is_tensor h obj = false -> is_LazyTensor h obj = true ->
        lazify obj h = (inr obj, h))
  /\ (is_tensor h obj = false -> is_LazyTensor h obj = false ->
        lazify obj h =
          (inl (TypeError ("object of class " ++ class_name h obj
                           ++ " cannot be made into a LazyTensor")%string), h))
  /\ ((exists e, fst (lazify obj h) = inl e) <->
        is_tensor h obj = false /\ is_LazyTensor h obj = false).
Proof.
  intros Hb.
  assert (B1 : is_tensor h obj = true -> lazify obj h = NonLazyTensor obj h).
  { intros E. unfold lazify, bind, read. now rewrite E. }
  assert (B2 : is_tensor h obj = false -> is_LazyTensor h obj = true ->
               lazify obj h = (inr obj, h)).
  { intros E1 E2. unfold lazify, bind, read. now rewrite E1, E2. }
  assert (B3 : is_tensor h obj = false -> is_LazyTensor h obj = false ->
               lazify obj h =
                 (inl (TypeError ("object of class " ++ class_name h obj
                                  ++ " cannot be made into a LazyTensor")%string), h)).
  { intros E1 E2. unfold lazify, bind, read, raise. now rewrite E1, E2. }
  repeat split; try assumption.
  - destruct H as [e He]. destruct (is_tensor h obj) eqn:E; [|reflexivity].
    rewrite (B1 eq_refl), (NonLazyTensor_run _ _ E) in He.
    destruct (Hb h obj E) as [b Eb]. rewrite Eb in He. discriminate.
  - destruct H as [e He].
    destruct (is_tensor h obj) eqn:E1.
    + rewrite (B1 eq_refl), (NonLazyTensor_run _ _ E1) in He.
      destruct (Hb h obj E1) as [b Eb]. rewrite Eb in He. discriminate.
    + destruct (is_LazyTensor h obj) eqn:E2; [|reflexivity].
      rewrite (B2 eq_refl eq_refl) in He. discriminate.
  - intros [E1 E2]. rewrite (B3 E1 E2). simpl. eauto.
Qed.

(** C6. Wrapping then materializing is the identity: for a tensor t,
    NonLazyTensor(t).evaluate() and lazify(t).evaluate() both return t
    itself. *)
Theorem wrap_then_evaluate h t :
  base_accepts_tensors -> is_tensor h t = true ->
  exists h',
    (w <- NonLazyTensor t ;; evaluate w) h = (inr t, h')
    /\ (w <- lazify t ;; evaluate w) h = (inr t, h').
Proof.
  intros Hb E. destruct (Hb h t E) as [b Eb].
  exists (h ++ [ONonLazy b t]).
  assert (R : (w <- NonLazyTensor t ;; evaluate w) h = (inr t, h ++ [ONonLazy b t])).
  { unfold bind. rewrite (NonLazyTensor_run _ _ E), Eb.
    unfold evaluate. apply self_tensor_run with (b := b). simpl. apply lookup_new. }
  split; [exact R|].
  etransitivity; [|exact R].
  unfold lazify, bind, read. cbv beta iota. now rewrite E.
Qed.

(** What [_getitem] does once the native indexing has produced [res]
    and the tuple has its last two entries. *)
Lemma getitem_run h self tv (T res : Tensor) (indices : list value) :
  wraps h self tv T ->
  2 <= List.length indices ->
  getitem T (map (resolve_index h) indices) = inr res ->
  let h1 := h ++ [OTensor res] in
  let row_index := nth (List.length indices - 2) indices VNone in
  let col_index := nth (List.length indices - 1) indices VNone in
  _getitem self indices h =
    if is_int row_index || is_tensor h1 row_index
       || is_int col_index || is_tensor h1 col_index
    then (inr (VRef (List.length h)), h1)
    else NonLazyTensor (VRef (List.length h)) h1.
Proof.
  intros [[b D] E] Hlen Hres. cbv zeta.
  unfold _getitem, bind.
  rewrite (self_tensor_run _ _ _ _ D), (tensor_getitem_run _ _ _ _ E), Hres.
  change (-2)%Z with (- Z.of_nat 2)%Z. change (-1)%Z with (- Z.of_nat 1)%Z.
  rewrite !tuple_getitem_last by lia.
  unfold read, ret.
  now destruct (is_int _ || is_tensor _ _ || is_int _ || is_tensor _ _).
Qed.

Lemma in_store_nth h (items : list value) (k : nat) :
  forallb (in_store h) items = true -> k < List.length items ->
  in_store h (nth k items VNone) = true.
Proof.
  intros F Hk. rewrite forallb_forall in F. apply F. now apply nth_In.
Qed.

(** C8. For an index tuple with at least two entries on which the
    native indexing yields [res]: [_getitem] returns [res] itself, a raw
    tensor, when the second-to-last or the last index is an int or a
    tensor; otherwise it returns a new NonLazyTensor whose [self.tensor]
    is [res].  The two outcomes exclude each other, so the raw tensor is
    returned exactly in the first case. *)
Theorem getitem_raw_or_wrapped h self tv (T res : Tensor) (indices : list value) :
  base_accepts_tensors ->
  wraps h self tv T ->
  2 <= List.length indices ->
  forallb (in_store h) indices = true ->
  getitem T (map (resolve_index h) indices) = inr res ->
  let row_index := nth (List.length indices - 2) indices VNone in
  let col_index := nth (List.length indices - 1) indices VNone in
  let raw := is_int row_index || is_tensor h row_index
             || is_int col_index || is_tensor h col_index in
  (raw = true ->
     _getitem self indices h = (inr (VRef (List.length h)), h ++ [OTensor res]))
  /\ (raw = false ->
        exists b,
          _getitem self indices h =
            (inr (VRef (S (List.length h))),
             (h ++ [OTensor res]) ++ [ONonLazy b (VRef (List.length h))]))
  /\ returns_raw_tensor (_getitem self indices h) = raw.
Proof.
  intros Hb W Hlen Hin Hres row_index col_index raw.
  pose proof (getitem_run h self tv T res indices W Hlen Hres) as R.
  cbv zeta in R. fold row_index col_index in R.
  rewrite !is_tensor_app in R by (apply in_store_nth; [exact Hin | lia]).
  fold raw in R.
  assert (Wr : raw = false ->
               exists b,
                 _getitem self indices h =
                   (inr (VRef (S (List.length h))),
                    (h ++ [OTensor res]) ++ [ONonLazy b (VRef (List.length h))])).
  { intros Er. rewrite Er in R.
    rewrite (NonLazyTensor_run _ _ (is_tensor_new h res)) in R.
    destruct (Hb _ _ (is_tensor_new h res)) as [b Eb]. rewrite Eb in R.
    exists b. rewrite R. rewrite length_app. simpl. now rewrite Nat.add_1_r. }
  split; [|split].
  - intros Er. now rewrite Er in R.
  - exact Wr.
  - destruct raw eqn:Er.
    + rewrite R. simpl. apply is_tensor_new.
    + destruct (Wr eq_refl) as [b Eb]. rewrite Eb.
      unfold returns_raw_tensor, is_tensor, tensor_at, deref.
      replace (S (List.length h)) with (List.length (h ++ [OTensor res]))
        by (rewrite length_app; simpl; lia).
      now rewrite lookup_new.
Qed.

(** C9. Transpose and transposed multiply agree: for a NonLazyTensor A
    and a tensor rhs, A._t_matmul(rhs) and
    A._transpose_nonbatch()._matmul(rhs) give the same product (or raise
    the same exception); and for A wrapping a matrix or a batch of
    matrices T, transposing twice yields a NonLazyTensor whose wrapped
    tensor equals T. *)
Theorem transpose_consistent h self tv rhs (T R : Tensor) :
  TorchLaws torch -> base_accepts_tensors ->
  wraps h self tv T -> tensor_at h rhs = Some R ->
  dense_result (_t_matmul self rhs h) =
    dense_result ((w <- _transpose_nonbatch self ;; _matmul w rhs) h)
  /\ (2 <= List.length (size T) ->
        exists w1 h1 w2 h2 tv2,
          _transpose_nonbatch self h = (inr w1, h1)
          /\ _transpose_nonbatch w1 h1 = (inr w2, h2)
          /\ wraps h2 w2 tv2 T).
Proof.
  intros Laws Hb W ER. split.
  - rewrite (t_matmul_dense _ _ _ _ _ _ W ER).
    destruct (transpose T (-1) (-2)) as [e|T'] eqn:Et.
    + unfold bind. now rewrite (transpose_nonbatch_fail _ _ _ _ _ W Et).
    + destruct (transpose_nonbatch_run _ _ _ _ _ Hb W Et)
        as (w & h' & tv' & Er & W' & [new ->]).
      unfold bind. rewrite Er. symmetry.
      apply matmul_dense with (tv := tv'); [exact W'|].
      now apply tensor_at_app.
  - intros Hdim.
    destruct (transpose_defined T Hdim) as [T' Et].
    pose proof (transpose_involutive T T' Et) as Et'.
    destruct (transpose_nonbatch_run _ _ _ _ _ Hb W Et)
      as (w1 & h1 & tv1 & Er1 & W1 & _).
    destruct (transpose_nonbatch_run _ _ _ _ _ Hb W1 Et')
      as (w2 & h2 & tv2 & Er2 & W2 & _).
    now exists w1, h1, w2, h2, tv2.
Qed.

(** C4, amended. [_get_indices(left, right, batch...)] is
    T[batch..., left, right] (the same run, the same outcome).  For an
    index tuple with at least two entries, the entries [_getitem]
    produces are those of T[indices], whether it returns them raw or
    wrapped, and it raises what T[indices] raises.  With fewer than two
    entries [_getitem] raises IndexError once T[indices] has succeeded. *)
Theorem indexing_delegates h self tv (T : Tensor)
    (left_indices right_indices : value) (batch_indices indices : list value) :
  base_accepts_tensors ->
  wraps h self tv T ->
  _get_indices self left_indices right_indices batch_indices h =
    spec_get_indices tv left_indices right_indices batch_indices h
  /\ dense_result (spec_getitem tv indices h) =
       Some (getitem T (map (resolve_index h) indices))
  /\ (2 <= List.length indices ->
        dense_result (_getitem self indices h) =
          dense_result (spec_getitem tv indices h))
  /\ (List.length indices < 2 ->
        forall res, getitem T (map (resolve_index h) indices) = inr res ->
        fst (_getitem self indices h) = inl (IndexError "tuple index out of range")).
Proof.
  intros Hb W. pose proof W as [[b D] E].
  assert (S : dense_result (spec_getitem tv indices h) =
              Some (getitem T (map (resolve_index h) indices))).
  { unfold spec_getitem. rewrite (tensor_getitem_run _ _ _ _ E).
    destruct (getitem T (map (resolve_index h) indices));
      [reflexivity | apply dense_result_new_tensor]. }
  split; [|split; [exact S|split]].
  - unfold _get_indices, spec_get_indices, bind.
    now rewrite (self_tensor_run _ _ _ _ D).
  - intros Hlen. rewrite S.
    destruct (getitem T (map (resolve_index h) indices)) as [e|res] eqn:Hres.
    + unfold _getitem, bind.
      now rewrite (self_tensor_run _ _ _ _ D), (tensor_getitem_run _ _ _ _ E), Hres.
    + rewrite (getitem_run h self tv T res indices W Hlen Hres). cbv zeta.
      destruct (is_int _ || is_tensor _ _ || is_int _ || is_tensor _ _).
      * apply dense_result_new_tensor.
      * rewrite (NonLazyTensor_run _ _ (is_tensor_new h res)).
        destruct (Hb _ _ (is_tensor_new h res)) as [b' Eb]. rewrite Eb.
        apply dense_result_wrapped with (tv := VRef (List.length h)).
        apply wraps_new, tensor_at_new.
  - intros Hlen res Hres. unfold _getitem, bind.
    rewrite (self_tensor_run _ _ _ _ D), (tensor_getitem_run _ _ _ _ E), Hres.
    now rewrite tuple_getitem_short.
Qed.

End Claims.

(** ** The claims on the example store *)

Section OnExample.
#[local] Existing Instance Dense.torch.
#[local] Existing Instance Dense.base.

Import Example.

Local Open Scope py_scope.

(** The recording base class accepts every argument list. *)
Lemma base_accepts : base_accepts_tensors.
Proof. intros h tsr _. now exists [tsr]. Defined.

Lemma wraps_lazy_a : wraps store lazy_a a A.
Proof. split; [now exists [VRef 0%nat] | reflexivity]. Defined.

Lemma wraps_lazy_b : wraps store lazy_b b B.
Proof. split; [now exists [VRef 1%nat] | reflexivity]. Defined.

(** [[1,2],[3,4]] times [[1,2,3],[4,5,6]], and its transposed product. *)
Lemma matmul_delegates_witness :
  dense_result (_matmul lazy_a b store) =
    Some (inr (Dense.make [2; 3]%nat [9; 12; 15; 19; 26; 33] eq_refl))
  /\ dense_result (_t_matmul lazy_a b store) =
       Some (inr (Dense.make [2; 3]%nat [13; 17; 21; 18; 24; 30] eq_refl)).
Proof.
  pose proof (matmul_delegates store lazy_a a b A B wraps_lazy_a eq_refl)
    as (_ & H1 & _ & H2).
  split; [exact H1 | exact H2].
Defined.

Lemma diag_and_size_delegate_witness :
  dense_result (diag lazy_b store) = Some (inr (Dense.make [2]%nat [1; 5] eq_refl))
  /\ _size lazy_b store = (inr (VSize [2; 3]%nat), store).
Proof.
  pose proof (diag_and_size_delegate store lazy_b b B wraps_lazy_b) as (_ & H1 & H2).
  split; [exact H1 | exact H2].
Defined.

Lemma quad_form_derivative_spec_witness :
  fst (_quad_form_derivative lazy_a b b store) = inr (VTuple [VRef 7%nat])
  /\ tensor_at (snd (_quad_form_derivative lazy_a b b store)) (VRef 7%nat) =
       Some (Dense.make [2; 2]%nat [14; 32; 32; 77] eq_refl).
Proof.
  pose proof (quad_form_derivative_spec store lazy_a b b B B eq_refl eq_refl) as [H _].
  rewrite H. split; reflexivity.
Defined.

Lemma calls_do_not_mutate_witness :
  deref (snd (call lazy_a Call_transpose_nonbatch store)) lazy_a =
    Some (ONonLazy [VRef 0%nat] a)
  /\ tensor_at (snd (call lazy_a Call_transpose_nonbatch store)) a = Some A.
Proof.
  pose proof (calls_do_not_mutate store lazy_a Call_transpose_nonbatch
                [VRef 0%nat] a A eq_refl eq_refl) as (H1 & H2 & _).
  split; [exact H1 | exact H2].
Defined.

Lemma constructor_type_check_witness :
  NonLazyTensor (VRef 5%nat) store =
    (inl (RuntimeError "NonLazyTensor must take a torch.Tensor; got dict"), store)
  /\ exists base, NonLazyTensor a store = (inr (VRef 6%nat), store ++ [ONonLazy base a]).
Proof.
  split.
  - exact (proj1 (constructor_type_check store (VRef 5%nat) base_accepts) eq_refl).
  - destruct (proj1 (proj2 (constructor_type_check store a base_accepts)) eq_refl)
      as [base [H _]].
    exists base. exact H.
Defined.

Lemma lazify_dispatch_witness :
  lazify (VRef 4%nat) store = (inr (VRef 4%nat), store)
  /\ lazify (VInt 3) store =
       (inl (TypeError "object of class int cannot be made into a LazyTensor"), store).
Proof.
  split.
  - exact (proj1 (proj2 (lazify_dispatch store (VRef 4%nat) base_accepts))
             eq_refl eq_refl).
  - exact (proj1 (proj2 (proj2 (lazify_dispatch store (VInt 3) base_accepts)))
             eq_refl eq_refl).
Defined.

Lemma wrap_then_evaluate_witness :
  exists h',
    (w <- NonLazyTensor a ;; evaluate w) store = (inr a, h')
    /\ (w <- lazify a ;; evaluate w) store = (inr a, h').
Proof. exact (wrap_then_evaluate store a base_accepts eq_refl). Defined.

(** B[:, 1] is returned raw, B[0:1, :] wrapped. *)
Lemma getitem_raw_or_wrapped_witness :
  _getitem lazy_b [VSlice None None None; VInt 1] store =
    (inr (VRef 6%nat), store ++ [OTensor (Dense.make [2]%nat [2; 5] eq_refl)])
  /\ returns_raw_tensor
       (_getitem lazy_b [VSlice (Some 0%Z) (Some 1%Z) None; VSlice None None None] store)
     = false.
Proof.
  split.
  - exact (proj1 (getitem_raw_or_wrapped store lazy_b b B
                    (Dense.make [2]%nat [2; 5] eq_refl)
                    [VSlice None None None; VInt 1]
                    base_accepts wraps_lazy_b (le_n 2) eq_refl eq_refl) eq_refl).
  - exact (proj2 (proj2 (getitem_raw_or_wrapped store lazy_b b B
                    (Dense.make [1; 3]%nat [1; 2; 3] eq_refl)
                    [VSlice (Some 0%Z) (Some 1%Z) None; VSlice None None None]
                    base_accepts wraps_lazy_b (le_n 2) eq_refl eq_refl))).
Defined.

Lemma transpose_consistent_witness :
  dense_result (_t_matmul lazy_a b store) =
    dense_result ((w <- _transpose_nonbatch lazy_a ;; _matmul w b) store)
  /\ exists w1 h1 w2 h2 tv2,
       _transpose_nonbatch lazy_b store = (inr w1, h1)
       /\ _transpose_nonbatch w1 h1 = (inr w2, h2)
       /\ wraps h2 w2 tv2 B.
Proof.
  split.
  - exact (proj1 (transpose_consistent store lazy_a a b A B
                    DenseFacts.laws base_accepts wraps_lazy_a eq_refl)).
  - exact (proj2 (transpose_consistent store lazy_b b b B B
                    DenseFacts.laws base_accepts wraps_lazy_b eq_refl) (le_n 2)).
Defined.

Lemma indexing_delegates_witness :
  dense_result (_getitem lazy_b [VInt 1; VSlice None None None] store) =
    Some (inr (Dense.make [3]%nat [4; 5; 6] eq_refl))
  /\ dense_result (_get_indices lazy_b (VInt 1) (VInt (-1)) [] store) =
       Some (inr (Dense.make []%nat [6] eq_refl)).
Proof.
  pose proof (indexing_delegates store lazy_b b B (VInt 1) (VInt (-1)) []
                [VInt 1; VSlice None None None] base_accepts wraps_lazy_b)
    as (H1 & H2 & H3 & _).
  split.
  - rewrite (H3 (le_n 2)). exact H2.
  - rewrite H1. reflexivity.
Defined.

(** C4 as worded fails: B[(1,)] is the row [4, 5, 6], and [_getitem] on
    the one-entry tuple raises IndexError at [indices[-2]]. *)
Lemma getitem_one_index_counterexample :
  dense_result (spec_getitem b [VInt 1] store) =
    Some (inr (Dense.make [3]%nat [4; 5; 6] eq_refl))
  /\ dense_result (_getitem lazy_b [VInt 1] store) =
       Some (inl (IndexError "tuple index out of range"))
  /\ ~ getitem_entries_for_every_tuple.
Proof.
  split; [reflexivity|]. split; [reflexivity|].
  intros H. specialize (H store lazy_b b B [VInt 1] wraps_lazy_b).
  vm_compute in H. discriminate H.
Qed.

End OnExample.


(** ** Further properties of the adapter *)

Section Further.
Context {torch : Torch} {lazy : LazyTensorBase torch}.

Local Open Scope py_scope.
Local Open Scope nat_scope.

Implicit Types (h : heap Base) (v self tv rhs obj : value).

(** The two ways [lazify] can return. *)
Lemma lazify_inv h obj w h' :
  lazify obj h = (inr w, h') ->
  (is_tensor h obj = true
   /\ exists b, w = VRef (List.length h) /\ h' = h ++ [ONonLazy b obj])
  \/ (is_tensor h obj = false /\ is_LazyTensor h obj = true /\ w = obj /\ h' = h).
Proof.
  unfold lazify, bind, read. cbv beta iota.
  destruct (is_tensor h obj) eqn:E1.
  - rewrite (NonLazyTensor_run _ _ E1).
    destruct (LazyTensor_init h [obj]) as [e|b]; [discriminate|].
    intros H. injection H as <- <-. left. split; [reflexivity|]. now exists b.
  - destruct (is_LazyTensor h obj) eqn:E2.
    + unfold ret. intros H. injection H as <- <-. now right.
    + unfold raise. discriminate.
Qed.

Lemma is_LazyTensor_not_tensor h obj :
  is_LazyTensor h obj = true -> is_tensor h obj = false.
Proof.
  unfold is_LazyTensor, is_tensor, tensor_at.
  destruct (deref h obj) as [[]|]; (discriminate || reflexivity).
Qed.

Lemma is_LazyTensor_new h b tsr :
  is_LazyTensor (h ++ [ONonLazy b tsr]) (VRef (List.length h)) = true.
Proof. unfold is_LazyTensor, deref. now rewrite lookup_new. Qed.

Lemma lazify_LazyTensor h obj :
  is_LazyTensor h obj = true -> lazify obj h = (inr obj, h).
Proof.
  intros E. unfold lazify, bind, read. cbv beta iota.
  now rewrite (is_LazyTensor_not_tensor _ _ E), E.
Qed.

Lemma lazify_tensor h t :
  is_tensor h t = true -> lazify t h = NonLazyTensor t h.
Proof. intros E. unfold lazify, bind, read. cbv beta iota. now rewrite E. Qed.

Lemma diag_dense h self tv (T : Tensor) :
  wraps h self tv T ->
  dense_result (diag self h) = Some (diagonal T 0 (-2) (-1)).
Proof.
  intros [[b D] E]. unfold diag, bind.
  rewrite (self_tensor_run _ _ _ _ D), (tensor_diagonal_run _ _ _ _ _ E).
  destruct (diagonal T 0 (-2) (-1)); [reflexivity | apply dense_result_new_tensor].
Qed.

Lemma size_run h self tv (T : Tensor) :
  wraps h self tv T -> _size self h = (inr (VSize (size T)), h).
Proof.
  intros [[b D] E]. unfold _size, bind. rewrite (self_tensor_run _ _ _ _ D).
  unfold tensor_size, bind, tensor_self. now rewrite E.
Qed.

Lemma nth_last_two (batch : list value) (l r : value) :
  nth (List.length (batch ++ [l; r]) - 2) (batch ++ [l; r]) VNone = l
  /\ nth (List.length (batch ++ [l; r]) - 1) (batch ++ [l; r]) VNone = r.
Proof.
  rewrite length_app. simpl. split.
  - rewrite app_nth2 by lia.
    replace (List.length batch + 2 - 2 - List.length batch) with 0 by lia.
    reflexivity.
  - rewrite app_nth2 by lia.
    replace (List.length batch + 2 - 1 - List.length batch) with 1 by lia.
    reflexivity.
Qed.

(** X1. Whenever [lazify] returns, what it returns is a LazyTensor (and
    not a raw tensor), as its docstring promises. *)
Theorem lazify_returns_LazyTensor h obj w h' :
  lazify obj h = (inr w, h') ->
  is_LazyTensor h' w = true /\ is_tensor h' w = false.
Proof.
  intros H.
  assert (L : is_LazyTensor h' w = true).
  { destruct (lazify_inv _ _ _ _ H) as [[_ [b [-> ->]]] | (_ & E & -> & ->)].
    - apply is_LazyTensor_new.
    - exact E. }
  split; [exact L | now apply is_LazyTensor_not_tensor].
Qed.

(** X2. [lazify] is idempotent: applied to its own result it returns that
    same object and leaves the store as it is. *)
Theorem lazify_idempotent h obj w h' :
  lazify obj h = (inr w, h') -> lazify w h' = (inr w, h').
Proof.
  intros H. apply lazify_LazyTensor.
  destruct (lazify_inv _ _ _ _ H) as [[_ [b [-> ->]]] | (_ & E & -> & ->)].
  - apply is_LazyTensor_new.
  - exact E.
Qed.

(** X3. [lazify] keeps no record of the tensors it has wrapped: called
    twice on the same tensor it builds two distinct NonLazyTensors, both
    having that one tensor object as their [self.tensor]. *)
Theorem lazify_wraps_anew h t (T : Tensor) :
  base_accepts_tensors -> tensor_at h t = Some T ->
  exists w1 h1 w2 h2,
    lazify t h = (inr w1, h1)
    /\ lazify t h1 = (inr w2, h2)
    /\ w1 <> w2
    /\ wraps h2 w1 t T /\ wraps h2 w2 t T.
Proof.
  intros Hb E.
  assert (I : is_tensor h t = true) by (unfold is_tensor; now rewrite E).
  destruct (Hb h t I) as [b1 E1].
  set (h1 := h ++ [ONonLazy b1 t]).
  assert (E' : tensor_at h1 t = Some T) by now apply tensor_at_app.
  assert (I1 : is_tensor h1 t = true) by (unfold is_tensor; now rewrite E').
  destruct (Hb h1 t I1) as [b2 E2].
  exists (VRef (List.length h)), h1, (VRef (List.length h1)), (h1 ++ [ONonLazy b2 t]).
  repeat split.
  - now rewrite (lazify_tensor _ _ I), (NonLazyTensor_run _ _ I), E1.
  - now rewrite (lazify_tensor _ _ I1), (NonLazyTensor_run _ _ I1), E2.
  - unfold h1. rewrite length_app. simpl. intros H. injection H. lia.
  - exists b1. apply deref_app. simpl. apply lookup_new.
  - now apply tensor_at_app.
  - exists b2. simpl. apply lookup_new.
  - now apply tensor_at_app.
Qed.

(** X4. The constructor does not accept what [lazify] accepts: handed a
    LazyTensor (a NonLazyTensor included) it raises the RuntimeError naming
    the argument's class, where [lazify] returns the argument. *)
Theorem constructor_rejects_LazyTensor h obj :
  is_LazyTensor h obj = true ->
  NonLazyTensor obj h =
    (inl (RuntimeError
            ("NonLazyTensor must take a torch.Tensor; got " ++ class_name h obj)%string), h)
  /\ lazify obj h = (inr obj, h).
Proof.
  intros E. split.
  - apply NonLazyTensor_reject. now apply is_LazyTensor_not_tensor.
  - now apply lazify_LazyTensor.
Qed.

(** X5. [_getitem] never returns for an index tuple of fewer than two
    entries, whatever it is called on.  On a NonLazyTensor the native
    indexing is run first: if it raises, that exception is the one raised;
    if it succeeds, the IndexError of [indices[-2]] is. *)
Theorem getitem_short_tuple_raises h self (indices : list value) :
  List.length indices < 2 ->
  (exists e, fst (_getitem self indices h) = inl e)
  /\ forall tv (T : Tensor),
       wraps h self tv T ->
       fst (_getitem self indices h) =
         match getitem T (map (resolve_index h) indices) with
         | inl e => inl e
         | inr _ => inl (IndexError "tuple index out of range")
         end.
Proof.
  intros Hlen. split.
  - unfold _getitem, bind.
    destruct (self_tensor self h) as [[e|t] h1]; [simpl; eauto|].
    destruct (tensor_getitem t indices h1) as [[e|r] h2]; [simpl; eauto|].
    rewrite tuple_getitem_short by exact Hlen. simpl. eauto.
  - intros tv T [[b D] E]. unfold _getitem, bind.
    rewrite (self_tensor_run _ _ _ _ D), (tensor_getitem_run _ _ _ _ E).
    destruct (getitem T (map (resolve_index h) indices)); [reflexivity|].
    now rewrite tuple_getitem_short.
Qed.

(** X6. [_getitem] and [_get_indices] agree: [_getitem(batch..., l, r)]
    produces the entries [_get_indices(l, r, batch...)] does, and when l or r
    is an int or a tensor the two calls have the very same outcome. *)
Theorem getitem_agrees_with_get_indices h self tv (T : Tensor)
    (l r : value) (batch : list value) :
  base_accepts_tensors ->
  wraps h self tv T ->
  dense_result (_getitem self (batch ++ [l; r]) h) =
    dense_result (_get_indices self l r batch h)
  /\ (in_store h l = true -> in_store h r = true ->
      is_int l || is_tensor h l || is_int r || is_tensor h r = true ->
      _getitem self (batch ++ [l; r]) h = _get_indices self l r batch h).
Proof.
  intros Hb W. pose proof W as [[b D] E].
  assert (G : _get_indices self l r batch h =
              match getitem T (map (resolve_index h) (batch ++ [l; r])) with
              | inl e => (inl e, h)
              | inr res => (inr (VRef (List.length h)), h ++ [OTensor res])
              end).
  { unfold _get_indices, bind.
    now rewrite (self_tensor_run _ _ _ _ D), (tensor_getitem_run _ _ _ _ E). }
  assert (Hlen : 2 <= List.length (batch ++ [l; r])) by (rewrite length_app; simpl; lia).
  destruct (nth_last_two batch l r) as [Nl Nr].
  destruct (getitem T (map (resolve_index h) (batch ++ [l; r]))) as [e|res] eqn:Hres.
  - assert (F : _getitem self (batch ++ [l; r]) h = (inl e, h)).
    { unfold _getitem, bind.
      now rewrite (self_tensor_run _ _ _ _ D), (tensor_getitem_run _ _ _ _ E), Hres. }
    rewrite F, G. split; [reflexivity | intros; reflexivity].
  - pose proof (getitem_run h self tv T res _ W Hlen Hres) as R.
    cbv zeta in R. rewrite Nl, Nr in R. rewrite G. split.
    + rewrite R, dense_result_new_tensor.
      destruct (is_int l || is_tensor _ l || is_int r || is_tensor _ r).
      * apply dense_result_new_tensor.
      * rewrite (NonLazyTensor_run _ _ (is_tensor_new h res)).
        destruct (Hb _ _ (is_tensor_new h res)) as [b' Eb]. rewrite Eb.
        apply dense_result_wrapped with (tv := VRef (List.length h)).
        apply wraps_new, tensor_at_new.
    + intros Il Ir Hraw.
      rewrite !is_tensor_app in R by assumption.
      now rewrite Hraw in R.
Qed.

(** X7. Wrapping a tensor with [lazify] changes nothing of what the
    forwarding methods compute: on lazify(t), [_matmul], [_t_matmul],
    [diag] and [_size] give what the native calls give on t. *)
Theorem lazify_then_forward h t rhs (T R : Tensor) :
  base_accepts_tensors ->
  tensor_at h t = Some T -> tensor_at h rhs = Some R ->
  dense_result ((w <- lazify t ;; _matmul w rhs) h) = Some (matmul T R)
  /\ dense_result ((w <- lazify t ;; _t_matmul w rhs) h) =
       Some (match transpose T (-1) (-2) with
             | inl e => inl e
             | inr T' => matmul T' R
             end)
  /\ dense_result ((w <- lazify t ;; diag w) h) = Some (diagonal T 0 (-2) (-1))
  /\ fst ((w <- lazify t ;; _size w) h) = inr (VSize (size T)).
Proof.
  intros Hb E ER.
  assert (I : is_tensor h t = true) by (unfold is_tensor; now rewrite E).
  destruct (Hb h t I) as [b Eb].
  assert (L : lazify t h = (inr (VRef (List.length h)), h ++ [ONonLazy b t])).
  { now rewrite (lazify_tensor _ _ I), (NonLazyTensor_run _ _ I), Eb. }
  assert (W : wraps (h ++ [ONonLazy b t]) (VRef (List.length h)) t T)
    by now apply wraps_new.
  assert (ER' : tensor_at (h ++ [ONonLazy b t]) rhs = Some R)
    by now apply tensor_at_app.
  unfold bind. rewrite L. repeat split.
  - now apply matmul_dense with (tv := t).
  - now apply t_matmul_dense with (tv := t).
  - now apply diag_dense with (tv := t).
  - now rewrite (size_run _ _ _ _ W).
Qed.

(** X8. For a NonLazyTensor around a matrix or a batch of matrices T,
    transposing and then multiplying by the transpose is multiplying by T:
    A._transpose_nonbatch()._t_matmul(rhs) gives what A._matmul(rhs) gives,
    and so does multiplying after two transpositions. *)
Theorem transpose_then_t_matmul h self tv rhs (T R : Tensor) :
  TorchLaws torch -> base_accepts_tensors ->
  wraps h self tv T -> tensor_at h rhs = Some R ->
  2 <= List.length (size T) ->
  dense_result ((w <- _transpose_nonbatch self ;; _t_matmul w rhs) h) =
    dense_result (_matmul self rhs h)
  /\ dense_result ((w <- _transpose_nonbatch self ;;
                    w' <- _transpose_nonbatch w ;;
                    _matmul w' rhs) h) =
       dense_result (_matmul self rhs h).
Proof.
  intros Laws Hb W ER Hdim.
  rewrite (matmul_dense _ _ _ _ _ _ W ER).
  destruct (transpose_defined T Hdim) as [T' Et].
  pose proof (transpose_involutive T T' Et) as Et'.
  destruct (transpose_nonbatch_run _ _ _ _ _ Hb W Et)
    as (w1 & h1 & tv1 & Er1 & W1 & [n1 ->]).
  assert (ER1 : tensor_at (h ++ n1) rhs = Some R) by now apply tensor_at_app.
  split.
  - unfold bind. rewrite Er1.
    rewrite (t_matmul_dense _ _ _ _ _ _ W1 ER1). now rewrite Et'.
  - destruct (transpose_nonbatch_run _ _ _ _ _ Hb W1 Et')
      as (w2 & h2 & tv2 & Er2 & W2 & [n2 ->]).
    unfold bind. rewrite Er1, Er2.
    apply matmul_dense with (tv := tv2); [exact W2|].
    now apply tensor_at_app.
Qed.

(** X9. When the native transposition raises, [_transpose_nonbatch] and
    [_t_matmul] raise that exception and leave the store untouched: no
    NonLazyTensor is built, and in [_t_matmul] the right-hand side is not
    even looked at. *)
Theorem transpose_failure_propagates h self tv rhs (T : Tensor) (e : exn) :
  wraps h self tv T -> transpose T (-1) (-2) = inl e ->
  _transpose_nonbatch self h = (inl e, h)
  /\ _t_matmul self rhs h = (inl e, h).
Proof.
  intros W Et. split.
  - now apply transpose_nonbatch_fail with (tv := tv) (T := T).
  - destruct W as [[b D] E]. unfold _t_matmul, bind.
    now rewrite (self_tensor_run _ _ _ _ D), (tensor_transpose_run _ _ _ _ _ E), Et.
Qed.

(** X10. [_transpose_nonbatch] returns a new NonLazyTensor around a new
    tensor object: neither was in the store before the call, and [self]
    still wraps the tensor it wrapped. *)
Theorem transpose_nonbatch_is_new h self tv (T T' : Tensor) :
  base_accepts_tensors ->
  wraps h self tv T -> transpose T (-1) (-2) = inr T' ->
  exists w h' tv',
    _transpose_nonbatch self h = (inr w, h')
    /\ in_store h w = false /\ in_store h tv' = false
    /\ wraps h' w tv' T' /\ wraps h' self tv T.
Proof.
  intros Hb W Et. pose proof W as [[b D] E].
  destruct (Hb _ _ (is_tensor_new h T')) as [b' Eb].
  exists (VRef (S (List.length h))),
         ((h ++ [OTensor T']) ++ [ONonLazy b' (VRef (List.length h))]),
         (VRef (List.length h)).
  repeat split.
  - unfold _transpose_nonbatch, bind.
    rewrite (self_tensor_run _ _ _ _ D), (tensor_transpose_run _ _ _ _ _ E), Et.
    rewrite (NonLazyTensor_run _ _ (is_tensor_new h T')), Eb.
    rewrite length_app. simpl. now rewrite Nat.add_1_r.
  - simpl. apply Nat.ltb_ge. lia.
  - simpl. apply Nat.ltb_ge. lia.
  - exists b'. unfold deref.
    replace (S (List.length h)) with (List.length (h ++ [OTensor T']))
      by (rewrite length_app; simpl; lia).
    apply lookup_new.
  - apply tensor_at_app, tensor_at_new.
  - exists b. rewrite <- app_assoc. now apply deref_app.
  - rewrite <- app_assoc. now apply tensor_at_app.
Qed.

End Further.

(** ** The further properties on the example store *)

Section FurtherOnExample.
#[local] Existing Instance Dense.torch.
#[local] Existing Instance Dense.base.

Import Example.

Local Open Scope py_scope.

Lemma lazify_returns_LazyTensor_witness :
  is_LazyTensor (store ++ [ONonLazy [a] a]) (VRef 6%nat) = true
  /\ is_tensor (store ++ [ONonLazy [a] a]) (VRef 6%nat) = false.
Proof.
  exact (lazify_returns_LazyTensor store a (VRef 6%nat) (store ++ [ONonLazy [a] a]) eq_refl).
Defined.

Lemma lazify_idempotent_witness :
  lazify (VRef 6%nat) (store ++ [ONonLazy [a] a]) =
    (inr (VRef 6%nat), store ++ [ONonLazy [a] a]).
Proof.
  exact (lazify_idempotent store a (VRef 6%nat) (store ++ [ONonLazy [a] a]) eq_refl).
Defined.

Lemma lazify_wraps_anew_witness :
  exists w1 h1 w2 h2,
    lazify a store = (inr w1, h1)
    /\ lazify a h1 = (inr w2, h2)
    /\ w1 <> w2
    /\ wraps h2 w1 a A /\ wraps h2 w2 a A.
Proof. exact (lazify_wraps_anew store a A base_accepts eq_refl). Defined.

(** NonLazyTensor(NonLazyTensor(a)) is refused. *)
Lemma constructor_rejects_LazyTensor_witness :
  NonLazyTensor lazy_a store =
    (inl (RuntimeError "NonLazyTensor must take a torch.Tensor; got NonLazyTensor"), store)
  /\ lazify lazy_a store = (inr lazy_a, store).
Proof. exact (constructor_rejects_LazyTensor store lazy_a eq_refl). Defined.

Lemma getitem_short_tuple_raises_witness :
  fst (_getitem lazy_b [VInt 1] store) = inl (IndexError "tuple index out of range")
  /\ fst (_getitem lazy_b [VInt 7] store) = inl (IndexError "index is out of bounds").
Proof.
  split.
  - exact (proj2 (getitem_short_tuple_raises store lazy_b [VInt 1] (le_n 2))
             b B wraps_lazy_b).
  - exact (proj2 (getitem_short_tuple_raises store lazy_b [VInt 7] (le_n 2))
             b B wraps_lazy_b).
Defined.

Lemma getitem_agrees_with_get_indices_witness :
  _getitem lazy_b [VInt 1; VInt 2] store = _get_indices lazy_b (VInt 1) (VInt 2) [] store
  /\ dense_result (_getitem lazy_b [VSlice None None None; VSlice None None None] store) =
       dense_result
         (_get_indices lazy_b (VSlice None None None) (VSlice None None None) [] store).
Proof.
  split.
  - exact (proj2 (getitem_agrees_with_get_indices store lazy_b b B (VInt 1) (VInt 2) []
                    base_accepts wraps_lazy_b) eq_refl eq_refl eq_refl).
  - exact (proj1 (getitem_agrees_with_get_indices store lazy_b b B
                    (VSlice None None None) (VSlice None None None) []
                    base_accepts wraps_lazy_b)).
Defined.

Lemma lazify_then_forward_witness :
  dense_result ((w <- lazify a ;; _matmul w b) store) =
    Some (inr (Dense.make [2; 3]%nat [9; 12; 15; 19; 26; 33] eq_refl))
  /\ fst ((w <- lazify a ;; _size w) store) = inr (VSize [2; 2]%nat).
Proof.
  pose proof (lazify_then_forward store a b A B base_accepts eq_refl eq_refl)
    as (H1 & _ & _ & H4).
  split; [exact H1 | exact H4].
Defined.

Lemma transpose_then_t_matmul_witness :
  dense_result ((w <- _transpose_nonbatch lazy_a ;; _t_matmul w b) store) =
    dense_result (_matmul lazy_a b store).
Proof.
  exact (proj1 (transpose_then_t_matmul store lazy_a a b A B
                  DenseFacts.laws base_accepts wraps_lazy_a eq_refl (le_n 2))).
Defined.

(** A vector has no last two dimensions to swap. *)
Lemma transpose_failure_propagates_witness :
  let v : Tensor := Dense.make [3]%nat [1; 2; 3] eq_refl in
  let h : heap Base := [OTensor v; ONonLazy [VRef 0%nat] (VRef 0%nat)] in
  _transpose_nonbatch (VRef 1%nat) h = (inl (IndexError "Dimension out of range"), h)
  /\ _t_matmul (VRef 1%nat) VNone h = (inl (IndexError "Dimension out of range"), h).
Proof.
  intros v h.
  apply (transpose_failure_propagates h (VRef 1%nat) (VRef 0%nat) VNone v).
  - split; [now exists [VRef 0%nat] | reflexivity].
  - reflexivity.
Defined.

Lemma transpose_nonbatch_is_new_witness :
  exists w h' tv',
    _transpose_nonbatch lazy_b store = (inr w, h')
    /\ in_store store w = false /\ in_store store tv' = false
    /\ wraps h' w tv' (Dense.make [3; 2]%nat [1; 4; 2; 5; 3; 6] eq_refl)
    /\ wraps h' lazy_b b B.
Proof.
  exact (transpose_nonbatch_is_new store lazy_b b B
           (Dense.make [3; 2]%nat [1; 4; 2; 5; 3; 6] eq_refl)
           base_accepts wraps_lazy_b eq_refl).
Defined.

End FurtherOnExample.
